(** * Products service: HTTP handlers over an abstract repository

    A shallow embedding of [interface/products_handler.py] and
    [domain/products_repository.py].

    Python integers are unbounded, so they are [Z].  A call that may raise
    is a computation [St -> outcome A * St]: it returns a value or raises an
    exception, and in both cases leaves a (possibly modified) store behind,
    as a Python method that mutates its object and then raises does. *)

From Stdlib Require Import ZArith List String Bool Lia.
Import ListNotations.

Local Open Scope string_scope.
Local Open Scope list_scope.
Local Open Scope Z_scope.

(* ===================================================================== *)
(** ** Python runtime fragment used by the handlers *)
(* ===================================================================== *)

Module Python.

(** Exceptions that reach the handlers.  [HTTPException] is FastAPI's;
    the other three are the error taxonomy of the domain layer.  All of
    them derive from [Exception], which is what [except Exception]
    catches; interpreter signals outside [Exception] are not modelled. *)
Inductive exn : Type :=
| HTTPException (status_code : Z) (detail : string)
| NotFound (message : string)
| ValidationError (message : string)
| StorageError (message : string).

(** The text an exception was built with. *)
Definition message_of (e : exn) : string :=
  match e with
  | HTTPException _ detail => detail
  | NotFound m | ValidationError m | StorageError m => m
  end.

Inductive outcome (A : Type) : Type :=
| Return (a : A)
| Raise (e : exn).
Arguments Return {A} a.
Arguments Raise {A} e.

(** A computation over a store of type [St]. *)
Definition M (St A : Type) : Type := St -> outcome A * St.

Definition ret {St A} (a : A) : M St A := fun s => (Return a, s).

Definition raise {St A} (e : exn) : M St A := fun s => (Raise e, s).

Definition bind {St A B} (m : M St A) (k : A -> M St B) : M St B :=
  fun s =>
    match m s with
    | (Return a, s') => k a s'
    | (Raise e, s') => (Raise e, s')
    end.

(** [try: body / except Exception as e: handler e].  The handler runs in
    the store the body left behind. *)
Definition try_except {St A} (body : M St A) (handler : exn -> M St A)
  : M St A :=
  fun s =>
    match body s with
    | (Return a, s') => (Return a, s')
    | (Raise e, s') => handler e s'
    end.

(** [len(l)]. *)
Definition len {A} (l : list A) : Z := Z.of_nat (List.length l).

(** Index adjustment of a slice bound with step 1: a negative bound counts
    from the end and is clamped at 0, any other bound is clamped at the
    length. *)
Definition adjust (n i : Z) : Z :=
  if i <? 0 then Z.max 0 (i + n) else Z.min i n.

(** [l[start:stop]]. *)
Definition slice {A} (l : list A) (start stop : Z) : list A :=
  let lo := adjust (len l) start in
  let hi := adjust (len l) stop in
  firstn (Z.to_nat (hi - lo)) (skipn (Z.to_nat lo) l).

(** The handler lets every exception of the callee through as it is, in
    the store the callee left. *)
Definition propagates_unchanged {St A B} (callee : M St A) (handler : M St B)
  : Prop :=
  forall s e s', callee s = (Raise e, s') -> handler s = (Raise e, s').

(** The outcome is not an [HTTPException] raised by the callee itself. *)
Definition raises_no_http {A} (o : outcome A) : Prop :=
  match o with
  | Raise (HTTPException _ _) => False
  | _ => True
  end.

End Python.

Import Python.

Declare Scope py_scope.
Delimit Scope py_scope with py.
Notation "x <- m ;; k" := (bind m (fun x => k))
  (at level 61, m at next level, right associativity) : py_scope.
Notation "m ;;; k" := (bind m (fun _ => k))
  (at level 61, right associativity) : py_scope.
Local Open Scope py_scope.

(* ===================================================================== *)
(** ** Entities *)
(* ===================================================================== *)

Module Entities.

(** Modelled from the spec: [domain/products_entities.py] is not part of
    the sources at hand.  A product has an identifier assigned by storage,
    a required name, and further descriptive attributes whose shape is
    left open; they are kept as a list of key/value pairs. *)
Record Product : Type := {
  product_id : Z;
  product_name : string;
  product_attributes : list (string * string)
}.

(** Modelled from the spec: the creation request carries the fields of a
    product without the identifier.  The name is required; a request in
    which it is missing is structurally invalid. *)
Record CreateBodyProduct : Type := {
  create_name : option string;
  create_attributes : list (string * string)
}.

(** Modelled from the spec: the update request carries the fields that may
    change, each of them optional, and never the identifier. *)
Record UpdateBodyProduct : Type := {
  update_name : option string;
  update_attributes : option (list (string * string))
}.

(** Modelled from the spec: one page of products plus the size of the
    whole collection. *)
Record PaginatedProductList : Type := {
  items : list Product;
  total_items : Z
}.

End Entities.

Import Entities.

(* ===================================================================== *)
(** ** Repository interface *)
(* ===================================================================== *)

Module Repository.

(** [class ProductsRepository(ABC)]: the five abstract operations, over
    whatever store [St] an implementation keeps.  The lookup and the
    update are annotated [-> Product], but the handlers test their result
    for truth, so an implementation may hand back [None]; the result is
    optional here.  [delete_product] is annotated [-> None]. *)
Record ProductsRepository (St : Type) : Type := {
  get_products : M St (list Product);
  get_product_by_id : Z -> M St (option Product);
  create_product : CreateBodyProduct -> M St Product;
  update_product : Z -> UpdateBodyProduct -> M St (option Product);
  delete_product : Z -> M St unit
}.
Arguments get_products {St} _.
Arguments get_product_by_id {St} _ _.
Arguments create_product {St} _ _.
Arguments update_product {St} _ _ _.
Arguments delete_product {St} _ _.

End Repository.

(* ===================================================================== *)
(** ** Use case *)
(* ===================================================================== *)

Module UseCase.

(** Modelled from the spec: [domain/products_usecase.py] is not part of
    the sources at hand.  The use case is built from a repository, each of
    its methods has the signature and the failure contract of the
    repository method of the same name, and it only forwards the call. *)
Record ProductsUseCase (St : Type) : Type := {
  products_repository : Repository.ProductsRepository St
}.
Arguments Build_ProductsUseCase {St} _.
Arguments products_repository {St} _.

Section Methods.
Context {St : Type} (self : ProductsUseCase St).

Definition get_products : M St (list Product) :=
  Repository.get_products (products_repository self).

Definition get_product_by_id (product_id : Z) : M St (option Product) :=
  Repository.get_product_by_id (products_repository self) product_id.

Definition create_product (product : CreateBodyProduct) : M St Product :=
  Repository.create_product (products_repository self) product.

Definition update_product (product_id : Z) (update_body : UpdateBodyProduct)
  : M St (option Product) :=
  Repository.update_product (products_repository self) product_id update_body.

Definition delete_product (product_id : Z) : M St unit :=
  Repository.delete_product (products_repository self) product_id.
End Methods.

End UseCase.

(* ===================================================================== *)
(** ** HTTP handlers *)
(* ===================================================================== *)

Module Handler.

(** [JSONResponse(content={...})]: a JSON object with string values; its
    status code defaults to 200. *)
Record JSONResponse : Type := {
  content : list (string * string)
}.

(** Constraints of the query parameters of [get_products]:
    [page: Query(1, gt=0)], [size_page: Query(10, gt=0, le=100)].  The
    handler body runs only on parameters that satisfy them. *)
Definition valid_query (page size_page : Z) : bool :=
  (0 <? page) && (0 <? size_page) && (size_page <=? 100).

(** Status code declared by each route decorator; 200 where the decorator
    names none. *)
Definition get_products_status : Z := 200.
Definition create_product_status : Z := 201.
Definition delete_product_status : Z := 200.

(** Status of the response the framework sends for a handler outcome: the
    route's status on a normal return, the status carried by an
    [HTTPException], and 500 for any other exception that escapes. *)
Definition http_status {A} (route_status : Z) (o : outcome A) : Z :=
  match o with
  | Return _ => route_status
  | Raise (HTTPException status_code _) => status_code
  | Raise _ => 500
  end.

Section Handlers.
Context {St : Type}.
Variable products_use_case : UseCase.ProductsUseCase St.
(** [str(e)] on an exception object; what it prints depends on the
    exception class. *)
Variable str : exn -> string.

Definition get_products (page size_page : Z) : M St PaginatedProductList :=
  all_products <- UseCase.get_products products_use_case ;;
  let start_idx := (page - 1) * size_page in
  let end_idx := start_idx + size_page in
  ret {| items := slice all_products start_idx end_idx;
         total_items := len all_products |}.

(** [if product:] succeeds on a model instance and fails on [None]. *)
Definition get_product (product_id : Z) : M St Product :=
  product <- UseCase.get_product_by_id products_use_case product_id ;;
  match product with
  | Some p => ret p
  | None => raise (HTTPException 404 "Product not found")
  end.

Definition create_product (product_body : CreateBodyProduct) : M St Product :=
  try_except
    (new_product <- UseCase.create_product products_use_case product_body ;;
     ret new_product)
    (fun e => raise (HTTPException 400 (str e))).

Definition update_product (product_id : Z) (update_body : UpdateBodyProduct)
  : M St Product :=
  updated_product <-
    UseCase.update_product products_use_case product_id update_body ;;
  match updated_product with
  | Some p => ret p
  | None => raise (HTTPException 404 "Product not found")
  end.

Definition delete_product (product_id : Z) : M St JSONResponse :=
  UseCase.delete_product products_use_case product_id ;;;
  ret {| content := [("message", "Product deleted successfully")] |}.
End Handlers.

End Handler.

(* ===================================================================== *)
(** ** A store kept in memory *)
(* ===================================================================== *)

Module Memory.

(** Products in creation order, and the next identifier to hand out.
    Identifiers grow, so a deleted one is never handed out again. *)
Record store : Type := {
  rows : list Product;
  next_id : Z
}.

Definition empty : store := {| rows := []; next_id := 1 |}.

(** What the store does when asked about an identifier it does not hold.
    The interface contract lets the operation fail with [NotFound]; the
    handlers test the result for truth, which presupposes [None]. *)
Inductive missing_policy : Type :=
| ReturnNone
| RaiseNotFound.

Definition has_id (product_id' : Z) (p : Product) : bool :=
  product_id p =? product_id'.

Definition find_by_id (product_id' : Z) (l : list Product) : option Product :=
  find (has_id product_id') l.

Definition apply_update (update_body : UpdateBodyProduct) (p : Product)
  : Product :=
  {| product_id := product_id p;
     product_name :=
       match update_name update_body with
       | Some n => n
       | None => product_name p
       end;
     product_attributes :=
       match update_attributes update_body with
       | Some a => a
       | None => product_attributes p
       end |}.

Definition new_product (product_id' : Z) (n : string)
           (product : CreateBodyProduct) : Product :=
  {| product_id := product_id';
     product_name := n;
     product_attributes := create_attributes product |}.

Section Operations.
Variable policy : missing_policy.

Definition missing {A} (none : A) : M store A :=
  match policy with
  | ReturnNone => ret none
  | RaiseNotFound => raise (NotFound "Product not found")
  end.

Definition get_products : M store (list Product) :=
  fun s => (Return (rows s), s).

Definition get_product_by_id (product_id' : Z) : M store (option Product) :=
  fun s =>
    match find_by_id product_id' (rows s) with
    | Some p => (Return (Some p), s)
    | None => missing None s
    end.

Definition create_product (product : CreateBodyProduct) : M store Product :=
  fun s =>
    match create_name product with
    | None => (Raise (ValidationError "name is required"), s)
    | Some n =>
        let p := new_product (next_id s) n product in
        (Return p, {| rows := rows s ++ [p]; next_id := next_id s + 1 |})
    end.

Definition update_product (product_id' : Z) (update_body : UpdateBodyProduct)
  : M store (option Product) :=
  fun s =>
    match find_by_id product_id' (rows s) with
    | Some p =>
        let rows' :=
          map (fun q => if has_id product_id' q
                        then apply_update update_body q else q) (rows s) in
        (Return (Some (apply_update update_body p)),
         {| rows := rows'; next_id := next_id s |})
    | None => missing None s
    end.

Definition delete_product (product_id' : Z) : M store unit :=
  fun s =>
    match find_by_id product_id' (rows s) with
    | Some _ =>
        (Return tt,
         {| rows := filter (fun q => negb (has_id product_id' q)) (rows s);
            next_id := next_id s |})
    | None => missing tt s
    end.

(** Modelled from the spec: no implementation of the repository
    interface is part of the sources at hand.  This one persists a new
    product under a fresh identifier and returns the stored entity,
    rejects a creation request without a name before touching the store,
    updates in place, and lists in creation order. *)
Definition repository : Repository.ProductsRepository store :=
  {| Repository.get_products := get_products;
     Repository.get_product_by_id := get_product_by_id;
     Repository.create_product := create_product;
     Repository.update_product := update_product;
     Repository.delete_product := delete_product |}.

Definition use_case : UseCase.ProductsUseCase store :=
  UseCase.Build_ProductsUseCase repository.
End Operations.

(** Every stored identifier was handed out before [next_id]. *)
Definition well_formed (s : store) : Prop :=
  Forall (fun p => product_id p < next_id s) (rows s).



End Memory.

(* ===================================================================== *)
(** ** A store that cannot be reached *)
(* ===================================================================== *)

Module Unavailable.

Definition failure : exn := StorageError "unable to open database file".

(** A repository whose backing store is down: whatever is asked of it, it
    raises [StorageError]. *)
Definition repository : Repository.ProductsRepository unit :=
  {| Repository.get_products := raise failure;
     Repository.get_product_by_id := fun _ => raise failure;
     Repository.create_product := fun _ => raise failure;
     Repository.update_product := fun _ _ => raise failure;
     Repository.delete_product := fun _ => raise failure |}.

Definition use_case : UseCase.ProductsUseCase unit :=
  UseCase.Build_ProductsUseCase repository.

End Unavailable.

(* ===================================================================== *)
(** ** Module initialisation of the handler file *)
(* ===================================================================== *)

Module Composition.

(** A class statement, as far as instantiation is concerned: its name and
    the methods of its body, each flagged when it carries
    [@abstractmethod]. *)
Record py_class : Type := {
  class_name : string;
  methods : list (string * bool)
}.

Inductive value : Type :=
| Str (s : string)
| Obj (class_name' : string).

Inductive type_error : Type :=
| TakesNoArguments (class_name' : string)
| AbstractClass (class_name' : string) (abstract : list string).

(** [__abstractmethods__], as the ABC metaclass collects it. *)
Definition abstract_methods (c : py_class) : list string :=
  map fst (filter snd (methods c)).

Definition defines_init (c : py_class) : bool :=
  existsb (fun m => String.eqb (fst m) "__init__") (methods c).

(** Calling a class [c] on arguments, for a class whose bases are [object] or [ABC]: arguments
    are refused when no [__init__] takes them, and a class with abstract
    methods left is never instantiated. *)
Definition call (c : py_class) (args : list value) : type_error + value :=
  if negb (defines_init c) && negb (Nat.eqb (List.length args) 0)
  then inl (TakesNoArguments (class_name c))
  else
    match abstract_methods c with
    | [] => inr (Obj (class_name c))
    | _ :: _ => inl (AbstractClass (class_name c) (abstract_methods c))
    end.

(** [class ProductsRepository(ABC)] of [domain/products_repository.py]. *)
Definition ProductsRepository : py_class :=
  {| class_name := "ProductsRepository";
     methods := [("get_products", true);
                 ("get_product_by_id", true);
                 ("create_product", true);
                 ("update_product", true);
                 ("delete_product", true)] |}.

(** Modelled from the spec: the use case class is not part of the sources
    at hand; it is a concrete class constructed from a repository. *)
Definition ProductsUseCase : py_class :=
  {| class_name := "ProductsUseCase";
     methods := [("__init__", false);
                 ("get_products", false);
                 ("get_product_by_id", false);
                 ("create_product", false);
                 ("update_product", false);
                 ("delete_product", false)] |}.

(** Module-level names bound once the handler file has been executed. *)
Record globals : Type := {
  db_url : string;
  products_repository : value;
  products_use_case : value
}.

(** Lines 10 to 12 of the handler file. *)
Definition module_init : type_error + globals :=
  let db_url' := "sqlite:///products.db" in
  match call ProductsRepository [Str db_url'] with
  | inl e => inl e
  | inr products_repository' =>
      match call ProductsUseCase [products_repository'] with
      | inl e => inl e
      | inr products_use_case' =>
          inr {| db_url := db_url';
                 products_repository := products_repository';
                 products_use_case := products_use_case' |}
      end
  end.

End Composition.

(* ===================================================================== *)
(** ** Sample stores and requests *)
(* ===================================================================== *)

Module Sample.

Definition named (n : string) : CreateBodyProduct :=
  {| create_name := Some n; create_attributes := [] |}.

Definition nameless : CreateBodyProduct :=
  {| create_name := None; create_attributes := [("price", "3")] |}.

Definition rename (n : string) : UpdateBodyProduct :=
  {| update_name := Some n; update_attributes := None |}.

(** The store reached from the empty one by creating a product per name. *)
Definition populate (names : list string) : Memory.store :=
  fold_left (fun s n => snd (Memory.create_product (named n) s))
            names Memory.empty.

(** Five products, with identifiers 1 to 5. *)
Definition five : Memory.store :=
  populate ["anvil"; "bolt"; "chisel"; "drill"; "file"].

Definition pear : CreateBodyProduct :=
  {| create_name := Some "pear"; create_attributes := [("price", "2")] |}.

End Sample.

(* ===================================================================== *)
(** ** Facts about slices *)
(* ===================================================================== *)

Section SliceFacts.
Context {A : Type}.
Implicit Types (l : list A) (start stop : Z).

Lemma len_nonneg l : 0 <= len l.
Proof. unfold len. lia. Qed.

Lemma adjust_range n i : 0 <= n -> 0 <= adjust n i <= n.
Proof.
  intros Hn. unfold adjust.
  destruct (Z.ltb_spec i 0); lia.
Qed.

(** With bounds that are not negative a slice drops [start] elements and
    keeps at most [stop - start] of the rest. *)
Lemma slice_nonneg l start stop :
  0 <= start <= stop ->
  slice l start stop =
  firstn (Z.to_nat (stop - start)) (skipn (Z.to_nat start) l).
Proof.
  intros [H0 Hle]. unfold slice, adjust.
  destruct (Z.ltb_spec start 0) as [Hneg | _]; [lia |].
  destruct (Z.ltb_spec stop 0) as [Hneg | _]; [lia |].
  destruct (Z_lt_le_dec start (len l)) as [Hin | Hout].
  - rewrite (Z.min_l start) by lia.
    destruct (Z_le_gt_dec stop (len l)) as [Hs | Hs].
    + rewrite (Z.min_l stop) by lia. reflexivity.
    + rewrite (Z.min_r stop) by lia.
      rewrite !firstn_all2; trivial;
        rewrite length_skipn; unfold len in *; lia.
  - rewrite !skipn_all2 by (unfold len in *; lia).
    now rewrite !firstn_nil.
Qed.

Lemma len_slice_nonneg l start stop :
  0 <= start <= stop ->
  len (slice l start stop) = Z.min (stop - start) (Z.max 0 (len l - start)).
Proof.
  intros H. rewrite slice_nonneg by assumption.
  unfold len. rewrite length_firstn, length_skipn. lia.
Qed.

Lemma slice_past_end l start stop :
  0 <= start <= stop -> len l <= start -> slice l start stop = [].
Proof.
  intros H Hout. rewrite slice_nonneg by assumption.
  rewrite skipn_all2 by (unfold len in Hout; lia).
  apply firstn_nil.
Qed.

(** A slice sits between the elements before [start] and those from
    [stop] on. *)
Lemma slice_contiguous l start stop :
  0 <= start <= stop ->
  l = firstn (Z.to_nat start) l ++ slice l start stop
      ++ skipn (Z.to_nat (stop - start)) (skipn (Z.to_nat start) l).
Proof.
  intros H. rewrite slice_nonneg by assumption.
  now rewrite !firstn_skipn.
Qed.

End SliceFacts.

(** Bounds computed by [get_products] from validated query parameters. *)
Lemma valid_query_bounds page size_page :
  Handler.valid_query page size_page = true ->
  1 <= page /\ 1 <= size_page <= 100 /\
  0 <= (page - 1) * size_page <= (page - 1) * size_page + size_page.
Proof.
  unfold Handler.valid_query. rewrite !andb_true_iff.
  intros [[Hp Hs] Hmax].
  apply Z.ltb_lt in Hp, Hs. apply Z.leb_le in Hmax. nia.
Qed.

(** [get_products] returns in the store the use case left, with the slice
    of whatever the use case listed. *)
Lemma get_products_run {St} (uc : UseCase.ProductsUseCase St)
      page size_page s s' all_products :
  UseCase.get_products uc s = (Return all_products, s') ->
  Handler.get_products uc page size_page s =
  (Return {| items := slice all_products ((page - 1) * size_page)
                            ((page - 1) * size_page + size_page);
             total_items := len all_products |}, s').
Proof.
  intros Hall. unfold Handler.get_products, bind. now rewrite Hall.
Qed.

(* ===================================================================== *)
(** ** Pagination *)
(* ===================================================================== *)

(** C1.  On validated parameters [get_products] answers with the slice of
    the listed collection that starts at index [(page - 1) * size_page],
    and the number of its items is
    [min size_page (max 0 (total_items - (page - 1) * size_page))].  In
    particular a collection with identifiers 1 to 5 asked for page 2 of
    size 2 yields the identifiers 3 and 4 and a total of 5. *)
Theorem get_products_page_length :
  (forall St (uc : UseCase.ProductsUseCase St) s s' all_products page size_page,
      UseCase.get_products uc s = (Return all_products, s') ->
      Handler.valid_query page size_page = true ->
      exists result,
        Handler.get_products uc page size_page s = (Return result, s') /\
        items result =
          firstn (Z.to_nat size_page)
                 (skipn (Z.to_nat ((page - 1) * size_page)) all_products) /\
        len (items result) =
          Z.min size_page
                (Z.max 0 (total_items result - (page - 1) * size_page))) /\
  (forall St (uc : UseCase.ProductsUseCase St) s s' all_products,
      UseCase.get_products uc s = (Return all_products, s') ->
      map product_id all_products = [1; 2; 3; 4; 5] ->
      exists result,
        Handler.get_products uc 2 2 s = (Return result, s') /\
        map product_id (items result) = [3; 4] /\
        total_items result = 5).
Proof.
  split.
  - intros St uc s s' all_products page size_page Hall Hvalid.
    destruct (valid_query_bounds _ _ Hvalid) as (Hp & Hs & Hidx).
    eexists. split; [apply get_products_run; eassumption |]. cbn [items total_items].
    split.
    + rewrite slice_nonneg by assumption. do 2 f_equal. lia.
    + rewrite len_slice_nonneg by assumption. f_equal. lia.
  - intros St uc s s' all_products Hall Hids.
    eexists. split; [apply get_products_run; eassumption |]. cbn [items total_items].
    assert (Hlen : len all_products = 5).
    { unfold len. rewrite <- (length_map product_id), Hids. reflexivity. }
    split; [| exact Hlen].
    unfold slice. rewrite Hlen.
    change (adjust 5 ((2 - 1) * 2 + 2)) with 4.
    change (adjust 5 ((2 - 1) * 2)) with 2.
    change (Z.to_nat (4 - 2)) with 2%nat. change (Z.to_nat 2) with 2%nat.
    do 5 (destruct all_products as [| ? all_products]; [discriminate |]).
    cbn in Hids |- *. congruence.
Qed.

Lemma get_products_page_length_witness :
  exists result,
    Handler.get_products (Memory.use_case Memory.ReturnNone) 2 2 Sample.five
    = (Return result, Sample.five) /\
    map product_id (items result) = [3; 4] /\
    map product_name (items result) = ["chisel"; "drill"] /\
    len (items result) = 2 /\
    total_items result = 5.
Proof.
  destruct get_products_page_length as [Hgeneral Hscenario].
  destruct (Hgeneral _ (Memory.use_case Memory.ReturnNone) Sample.five Sample.five
                     (Memory.rows Sample.five) 2 2 eq_refl eq_refl)
    as (r & Hrun & Hitems & Hlen).
  destruct (Hscenario _ (Memory.use_case Memory.ReturnNone) Sample.five Sample.five
                      (Memory.rows Sample.five) eq_refl eq_refl)
    as (r' & Hrun' & Hids & Htotal).
  rewrite Hrun in Hrun'. injection Hrun' as <-.
  exists r. split; [exact Hrun |]. split; [exact Hids |].
  split; [rewrite Hitems; reflexivity |].
  split; [rewrite Hlen, Htotal; reflexivity | exact Htotal].
Defined.

(** C2.  On validated parameters, a page whose start index
    [(page - 1) * size_page] is at or past the end of the collection is
    answered with no items and the size of the whole collection, not with an
    exception; page 10 of size 10 over five products is such a page. *)
Theorem get_products_past_end_is_empty :
  forall St (uc : UseCase.ProductsUseCase St) s s' all_products page size_page,
    UseCase.get_products uc s = (Return all_products, s') ->
    Handler.valid_query page size_page = true ->
    len all_products <= (page - 1) * size_page ->
    Handler.get_products uc page size_page s =
    (Return {| items := []; total_items := len all_products |}, s').
Proof.
  intros St uc s s' all_products page size_page Hall Hvalid Hpast.
  destruct (valid_query_bounds _ _ Hvalid) as (Hp & Hs & Hidx).
  rewrite (get_products_run uc page size_page s s' all_products Hall).
  now rewrite slice_past_end.
Qed.

Lemma get_products_past_end_is_empty_witness :
  Handler.get_products (Memory.use_case Memory.RaiseNotFound) 10 10 Sample.five
  = (Return {| items := []; total_items := 5 |}, Sample.five).
Proof.
  apply (get_products_past_end_is_empty
           _ (Memory.use_case Memory.RaiseNotFound) Sample.five Sample.five
           (Memory.rows Sample.five) 10 10 eq_refl eq_refl).
  vm_compute. discriminate.
Defined.

(** C3.  Whatever page and page size are asked for, [total_items] of the
    answer is the number of products the use case listed. *)
Theorem get_products_total_items :
  forall St (uc : UseCase.ProductsUseCase St) s s' all_products page size_page,
    UseCase.get_products uc s = (Return all_products, s') ->
    exists result,
      Handler.get_products uc page size_page s = (Return result, s') /\
      total_items result = len all_products.
Proof.
  intros St uc s s' all_products page size_page Hall.
  eexists. split; [apply get_products_run; eassumption | reflexivity].
Qed.

Lemma get_products_total_items_witness :
  exists result,
    Handler.get_products (Memory.use_case Memory.ReturnNone) 3 2 Sample.five
    = (Return result, Sample.five) /\
    total_items result = 5.
Proof.
  exact (get_products_total_items
           _ (Memory.use_case Memory.ReturnNone) Sample.five Sample.five
           (Memory.rows Sample.five) 3 2 eq_refl).
Defined.

(** C4.  On validated parameters the answer of [get_products] holds at most
    [size_page] items, and they are a contiguous run of the listed
    collection: the collection is the items between a prefix of
    [min ((page - 1) * size_page) (len all_products)] products and a suffix,
    and the run stops at [size_page] items or at the end of the
    collection. *)
Theorem get_products_page_invariant :
  forall St (uc : UseCase.ProductsUseCase St) s s' all_products page size_page,
    UseCase.get_products uc s = (Return all_products, s') ->
    Handler.valid_query page size_page = true ->
    exists result before after,
      Handler.get_products uc page size_page s = (Return result, s') /\
      len (items result) <= size_page /\
      all_products = before ++ items result ++ after /\
      len before = Z.min ((page - 1) * size_page) (len all_products) /\
      len (items result) = Z.min size_page (len all_products - len before).
Proof.
  intros St uc s s' all_products page size_page Hall Hvalid.
  destruct (valid_query_bounds _ _ Hvalid) as (Hp & Hs & Hidx).
  set (start_idx := (page - 1) * size_page) in *.
  exists {| items := slice all_products start_idx (start_idx + size_page);
            total_items := len all_products |},
    (firstn (Z.to_nat start_idx) all_products),
    (skipn (Z.to_nat (start_idx + size_page - start_idx))
           (skipn (Z.to_nat start_idx) all_products)).
  cbn [items total_items].
  assert (Hbefore : len (firstn (Z.to_nat start_idx) all_products)
                    = Z.min start_idx (len all_products)).
  { unfold len. rewrite length_firstn. lia. }
  split; [apply get_products_run; assumption |].
  split; [rewrite len_slice_nonneg by assumption; lia |].
  split; [apply slice_contiguous; assumption |].
  split; [exact Hbefore |].
  rewrite Hbefore, len_slice_nonneg by assumption.
  pose proof (len_nonneg all_products). lia.
Qed.

Lemma get_products_page_invariant_witness :
  exists result before after,
    Handler.get_products (Memory.use_case Memory.ReturnNone) 3 2 Sample.five
    = (Return result, Sample.five) /\
    len (items result) <= 2 /\
    Memory.rows Sample.five = before ++ items result ++ after /\
    len before = 4 /\
    len (items result) = 1.
Proof.
  destruct (get_products_page_invariant
              _ (Memory.use_case Memory.ReturnNone) Sample.five Sample.five
              (Memory.rows Sample.five) 3 2 eq_refl eq_refl)
    as (result & before & after & Hrun & Hle & Hsplit & Hbefore & Hlen).
  exists result, before, after.
  rewrite Hbefore in Hlen.
  repeat split; assumption.
Defined.

(* ===================================================================== *)
(** ** Lookup, update and delete by identifier *)
(* ===================================================================== *)

Section HandlerRuns.
Context {St : Type} (uc : UseCase.ProductsUseCase St).

Lemma get_product_found product_id s p s' :
  UseCase.get_product_by_id uc product_id s = (Return (Some p), s') ->
  Handler.get_product uc product_id s = (Return p, s').
Proof. intros H. unfold Handler.get_product, bind. now rewrite H. Qed.


Lemma get_product_raise product_id :
  propagates_unchanged (UseCase.get_product_by_id uc product_id)
                       (Handler.get_product uc product_id).
Proof. intros s e s' H. unfold Handler.get_product, bind. now rewrite H. Qed.



Lemma update_product_raise product_id update_body :
  propagates_unchanged (UseCase.update_product uc product_id update_body)
                       (Handler.update_product uc product_id update_body).
Proof. intros s e s' H. unfold Handler.update_product, bind. now rewrite H. Qed.

Lemma get_products_raise page size_page :
  propagates_unchanged (UseCase.get_products uc)
                       (Handler.get_products uc page size_page).
Proof. intros s e s' H. unfold Handler.get_products, bind. now rewrite H. Qed.

Lemma delete_product_return product_id s s' :
  UseCase.delete_product uc product_id s = (Return tt, s') ->
  Handler.delete_product uc product_id s =
  (Return {| Handler.content := [("message", "Product deleted successfully")] |},
   s').
Proof. intros H. unfold Handler.delete_product, bind. now rewrite H. Qed.

Lemma delete_product_raise product_id :
  propagates_unchanged (UseCase.delete_product uc product_id)
                       (Handler.delete_product uc product_id).
Proof. intros s e s' H. unfold Handler.delete_product, bind. now rewrite H. Qed.

Lemma create_product_return str product_body s p s' :
  UseCase.create_product uc product_body s = (Return p, s') ->
  Handler.create_product uc str product_body s = (Return p, s').
Proof.
  intros H. unfold Handler.create_product, try_except, bind, ret.
  now rewrite H.
Qed.

Lemma create_product_raise str product_body s e s' :
  UseCase.create_product uc product_body s = (Raise e, s') ->
  Handler.create_product uc str product_body s =
  (Raise (HTTPException 400 (str e)), s').
Proof.
  intros H. unfold Handler.create_product, try_except, bind, raise.
  now rewrite H.
Qed.

(** The delete handler answers 404 only when the use case itself raised
    an [HTTPException] that carries it. *)
Lemma delete_product_status product_id s :
  raises_no_http (fst (UseCase.delete_product uc product_id s)) ->
  Handler.http_status Handler.delete_product_status
                      (fst (Handler.delete_product uc product_id s)) = 200 \/
  Handler.http_status Handler.delete_product_status
                      (fst (Handler.delete_product uc product_id s)) = 500.
Proof.
  destruct (UseCase.delete_product uc product_id s) as [[[] | e] s'] eqn:H;
    cbn [fst]; intros Hno.
  - rewrite (delete_product_return _ _ _ H). now left.
  - rewrite (delete_product_raise _ _ _ _ H). cbn [fst].
    destruct e; cbn in *; [contradiction | now right ..].
Qed.

End HandlerRuns.

(** C5.  Asked to delete identifier 9 from a store that holds identifiers 1
    to 5, [delete_product] does not answer 404: over a store that ignores a
    missing identifier it returns the confirmation message with status 200
    and leaves the store as it was, and over a store that raises [NotFound]
    that exception escapes the handler, which the framework answers with
    500. *)
Theorem delete_product_missing_id_not_404 :
  Memory.find_by_id 9 (Memory.rows Sample.five) = None /\
  Handler.delete_product (Memory.use_case Memory.ReturnNone) 9 Sample.five
  = (Return {| Handler.content :=
                 [("message", "Product deleted successfully")] |},
     Sample.five) /\
  Handler.http_status Handler.delete_product_status
    (fst (Handler.delete_product (Memory.use_case Memory.ReturnNone) 9
                                 Sample.five)) = 200 /\
  Handler.delete_product (Memory.use_case Memory.RaiseNotFound) 9 Sample.five
  = (Raise (NotFound "Product not found"), Sample.five) /\
  Handler.http_status Handler.delete_product_status
    (fst (Handler.delete_product (Memory.use_case Memory.RaiseNotFound) 9
                                 Sample.five)) = 500.
Proof. repeat split; reflexivity. Qed.

(* ===================================================================== *)
(** ** Exceptions of the storage layer *)
(* ===================================================================== *)

(** Over a store that is down, the [StorageError] of the use case does not
    leave [create_product] as it is: the handler raises an [HTTPException]
    with status 400 in its place. *)
Lemma create_product_hides_storage_error :
  ~ propagates_unchanged
      (UseCase.create_product Unavailable.use_case Sample.pear)
      (Handler.create_product Unavailable.use_case message_of Sample.pear) /\
  Handler.create_product Unavailable.use_case message_of Sample.pear tt
  = (Raise (HTTPException 400 "unable to open database file"), tt) /\
  Handler.http_status Handler.create_product_status
    (fst (Handler.create_product Unavailable.use_case message_of Sample.pear tt))
  = 400.
Proof.
  split; [| split; reflexivity].
  intros Hprop.
  specialize (Hprop tt Unavailable.failure tt eq_refl).
  discriminate Hprop.
Qed.

(** C6.  An exception raised by the use case, a [StorageError] included,
    leaves [get_products], [get_product], [update_product] and
    [delete_product] as it is.  [create_product] catches it and raises an
    [HTTPException] with status 400 whose detail is [str] of the exception;
    it never turns it into a normal return. *)
Theorem use_case_exceptions_in_handlers :
  forall St (uc : UseCase.ProductsUseCase St) (str : exn -> string),
    (forall page size_page,
        propagates_unchanged (UseCase.get_products uc)
                             (Handler.get_products uc page size_page)) /\
    (forall product_id,
        propagates_unchanged (UseCase.get_product_by_id uc product_id)
                             (Handler.get_product uc product_id)) /\
    (forall product_id update_body,
        propagates_unchanged
          (UseCase.update_product uc product_id update_body)
          (Handler.update_product uc product_id update_body)) /\
    (forall product_id,
        propagates_unchanged (UseCase.delete_product uc product_id)
                             (Handler.delete_product uc product_id)) /\
    (forall product_body s e s',
        UseCase.create_product uc product_body s = (Raise e, s') ->
        Handler.create_product uc str product_body s
        = (Raise (HTTPException 400 (str e)), s')).
Proof.
  intros St uc str. repeat split.
  - intros page size_page. apply get_products_raise.
  - intros product_id. apply get_product_raise.
  - intros product_id update_body. apply update_product_raise.
  - intros product_id. apply delete_product_raise.
  - intros product_body s e s'. apply create_product_raise.
Qed.

Lemma use_case_exceptions_in_handlers_witness :
  Handler.get_products Unavailable.use_case 1 10 tt
  = (Raise (StorageError "unable to open database file"), tt) /\
  Handler.get_product Unavailable.use_case 4 tt
  = (Raise (StorageError "unable to open database file"), tt) /\
  Handler.update_product Unavailable.use_case 4 (Sample.rename "nut") tt
  = (Raise (StorageError "unable to open database file"), tt) /\
  Handler.delete_product Unavailable.use_case 4 tt
  = (Raise (StorageError "unable to open database file"), tt) /\
  Handler.create_product Unavailable.use_case message_of Sample.pear tt
  = (Raise (HTTPException 400 "unable to open database file"), tt).
Proof.
  destruct (use_case_exceptions_in_handlers _ Unavailable.use_case message_of)
    as (Hlist & Hget & Hupdate & Hdelete & Hcreate).
  split; [| split; [| split; [| split]]].
  - apply (Hlist 1 10 tt). reflexivity.
  - apply (Hget 4 tt). reflexivity.
  - apply (Hupdate 4 (Sample.rename "nut") tt). reflexivity.
  - apply (Hdelete 4 tt). reflexivity.
  - apply (Hcreate Sample.pear tt Unavailable.failure tt). reflexivity.
Defined.

(* ===================================================================== *)
(** ** The store kept in memory *)
(* ===================================================================== *)

Section MemoryFacts.
Import Memory.

Lemma find_by_id_app_none product_id' l l' :
  find_by_id product_id' l = None ->
  find_by_id product_id' (l ++ l') = find_by_id product_id' l'.
Proof.
  unfold find_by_id. induction l as [| q l IH]; cbn; [trivial |].
  destruct (has_id product_id' q); [discriminate | exact IH].
Qed.

Lemma find_by_id_unused product_id' l :
  Forall (fun p => product_id p < product_id') l ->
  find_by_id product_id' l = None.
Proof.
  unfold find_by_id, has_id. induction 1 as [| q l Hq _ IH]; cbn; [trivial |].
  destruct (Z.eqb_spec (product_id q) product_id'); [lia | exact IH].
Qed.

Lemma unused_not_listed product_id' l :
  Forall (fun p => product_id p < product_id') l ->
  ~ In product_id' (map product_id l).
Proof.
  intros Hall Hin. apply in_map_iff in Hin as (q & Hq & Hin).
  rewrite Forall_forall in Hall. specialize (Hall q Hin). lia.
Qed.


Lemma well_formed_create product s :
  well_formed s -> well_formed (snd (create_product product s)).
Proof.
  unfold well_formed, create_product. intros Hwf.
  destruct (create_name product) as [n |]; cbn; [| exact Hwf].
  apply Forall_app. split.
  - eapply Forall_impl; [| exact Hwf]. cbn. intros; lia.
  - constructor; [cbn; lia | constructor].
Qed.





(** Looking up the identifier a creation just handed out finds the
    product that was created. *)
Lemma get_after_create policy product n s :
  well_formed s ->
  create_name product = Some n ->
  get_product_by_id policy (next_id s) (snd (create_product product s))
  = (Return (Some (new_product (next_id s) n product)),
     snd (create_product product s)).
Proof.
  intros Hwf Hname. unfold get_product_by_id, create_product.
  rewrite Hname. cbn [snd rows].
  rewrite find_by_id_app_none by now apply find_by_id_unused.
  unfold find_by_id, has_id. cbn. now rewrite Z.eqb_refl.
Qed.


End MemoryFacts.

(** C9.  Over the store kept in memory, for every creation request that
    names the product: [create_product] returns a product that carries the
    name and the attributes of the request under an identifier no stored
    product has, and [get_product] asked for that identifier right after
    returns the very same product. *)
Theorem create_then_get_round_trip :
  forall policy (str : exn -> string) product_body n s,
    Memory.well_formed s ->
    create_name product_body = Some n ->
    exists created s1,
      Handler.create_product (Memory.use_case policy) str product_body s
      = (Return created, s1) /\
      Handler.get_product (Memory.use_case policy) (product_id created) s1
      = (Return created, s1) /\
      product_name created = n /\
      product_attributes created = create_attributes product_body /\
      ~ In (product_id created) (map product_id (Memory.rows s)) /\
      Memory.well_formed s1.
Proof.
  intros policy str product_body n s Hwf Hname.
  exists (Memory.new_product (Memory.next_id s) n product_body),
    (snd (Memory.create_product product_body s)).
  assert (Hcreate :
            UseCase.create_product (Memory.use_case policy) product_body s
            = (Return (Memory.new_product (Memory.next_id s) n product_body),
               snd (Memory.create_product product_body s))).
  { cbn. unfold Memory.create_product. now rewrite Hname. }
  split; [now apply create_product_return |].
  split.
  - apply get_product_found. cbn [product_id Memory.new_product].
    exact (get_after_create policy product_body n s Hwf Hname).
  - repeat split; trivial.
    + now apply unused_not_listed.
    + now apply well_formed_create.
Qed.

Lemma create_then_get_round_trip_witness :
  exists created s1,
    Handler.create_product (Memory.use_case Memory.RaiseNotFound) message_of
                           Sample.pear Sample.five
    = (Return created, s1) /\
    Handler.get_product (Memory.use_case Memory.RaiseNotFound)
                        (product_id created) s1
    = (Return created, s1) /\
    product_name created = "pear" /\
    product_attributes created = [("price", "2")] /\
    ~ In (product_id created) [1; 2; 3; 4; 5] /\
    Memory.well_formed s1.
Proof.
  apply (create_then_get_round_trip
           Memory.RaiseNotFound message_of Sample.pear "pear" Sample.five).
  - repeat constructor.
  - reflexivity.
Defined.

(* ===================================================================== *)
(** ** Module initialisation *)
(* ===================================================================== *)

(** C10.  All five methods of [ProductsRepository] are abstract, so calling
    the class fails whatever the arguments, and without arguments it fails
    for being abstract; the call on [db_url] at module level fails, and with
    it the initialisation of the handler module, which therefore binds
    neither a repository nor a use case. *)
Theorem module_init_fails :
  Composition.abstract_methods Composition.ProductsRepository
  = ["get_products"; "get_product_by_id"; "create_product";
     "update_product"; "delete_product"] /\
  Composition.call Composition.ProductsRepository []
  = inl (Composition.AbstractClass
           "ProductsRepository"
           (Composition.abstract_methods Composition.ProductsRepository)) /\
  (forall args,
      exists e, Composition.call Composition.ProductsRepository args = inl e) /\
  (exists e, Composition.module_init = inl e) /\
  (forall g, Composition.module_init <> inr g).
Proof.
  split; [reflexivity |]. split; [reflexivity |]. split; [| split].
  - intros [| a args]; eexists; reflexivity.
  - eexists. reflexivity.
  - intros g. discriminate.
Qed.


(* ===================================================================== *)
(** ** Walking through the pages *)
(* ===================================================================== *)

Section PageFacts.
Context {A : Type}.
Implicit Types (l : list A).

Lemma firstn_plus (a b : nat) l :
  firstn (a + b) l = firstn a l ++ firstn b (skipn a l).
Proof.
  revert l. induction a as [| a IH]; intros l; [reflexivity |].
  destruct l as [| x l]; cbn; [now rewrite firstn_nil | now rewrite IH].
Qed.

(** The slice [get_products] cuts for page [page] of size [size_page]. *)
Lemma page_slice l page size_page :
  1 <= page -> 1 <= size_page ->
  slice l ((page - 1) * size_page) ((page - 1) * size_page + size_page)
  = firstn (Z.to_nat size_page)
           (skipn (Z.to_nat (page - 1) * Z.to_nat size_page) l).
Proof.
  intros Hp Hs. rewrite slice_nonneg by nia.
  rewrite <- Z2Nat.inj_mul by lia. do 2 f_equal. lia.
Qed.

(** The slices of pages 1 to [k], one after the other, are the first
    [k * size_page] elements. *)
Lemma concat_page_slices l size_page (k : nat) :
  1 <= size_page ->
  List.concat (map (fun page =>
                 slice l ((page - 1) * size_page)
                       ((page - 1) * size_page + size_page))
              (map Z.of_nat (seq 1 k)))
  = firstn (k * Z.to_nat size_page) l.
Proof.
  intros Hs. induction k as [| k IH]; [reflexivity |].
  rewrite seq_S, !map_app, concat_app, IH. cbn [map List.concat].
  rewrite app_nil_r, page_slice by lia.
  replace (Z.to_nat (Z.of_nat (1 + k) - 1)) with k by lia.
  replace (S k * Z.to_nat size_page)%nat
    with (k * Z.to_nat size_page + Z.to_nat size_page)%nat by lia.
  now rewrite firstn_plus.
Qed.

End PageFacts.

(** Asked for each page of a list of page numbers over a use case that
    lists [all_products] and leaves the store alone, [get_products] gives
    the slices of those pages. *)
Lemma get_products_each_page {St} (uc : UseCase.ProductsUseCase St)
      s all_products size_page (pages : list Z) :
  UseCase.get_products uc s = (Return all_products, s) ->
  Forall2 (fun page result =>
             Handler.get_products uc page size_page s = (Return result, s))
          pages
          (map (fun page =>
                  {| items := slice all_products ((page - 1) * size_page)
                                    ((page - 1) * size_page + size_page);
                     total_items := len all_products |}) pages).
Proof.
  intros Hall. induction pages as [| page pages IH]; constructor; trivial.
  now apply get_products_run.
Qed.

(** X1.  Over a use case that lists the same collection and leaves the
    store alone, the items of pages 1 to [k] of [get_products], put one
    after the other, are the first [k * size_page] products of the
    collection: consecutive pages neither overlap nor skip a product. *)
Theorem get_products_pages_concat :
  forall St (uc : UseCase.ProductsUseCase St) s all_products size_page (k : nat),
    UseCase.get_products uc s = (Return all_products, s) ->
    Handler.valid_query 1 size_page = true ->
    exists answers,
      Forall2 (fun page result =>
                 Handler.get_products uc page size_page s = (Return result, s))
              (map Z.of_nat (seq 1 k)) answers /\
      List.concat (map items answers)
      = firstn (k * Z.to_nat size_page) all_products.
Proof.
  intros St uc s all_products size_page k Hall Hvalid.
  destruct (valid_query_bounds _ _ Hvalid) as (_ & Hs & _).
  eexists. split; [apply get_products_each_page; exact Hall |].
  rewrite map_map. cbn [items].
  apply concat_page_slices. lia.
Qed.

Lemma get_products_pages_concat_witness :
  exists answers,
    Forall2 (fun page result =>
               Handler.get_products (Memory.use_case Memory.ReturnNone)
                                    page 2 Sample.five
               = (Return result, Sample.five))
            [1; 2] answers /\
    map product_id (List.concat (map items answers)) = [1; 2; 3; 4].
Proof.
  destruct (get_products_pages_concat
              _ (Memory.use_case Memory.ReturnNone) Sample.five
              (Memory.rows Sample.five) 2 2%nat eq_refl eq_refl)
    as (answers & Hruns & Hconcat).
  exists answers. split; [exact Hruns |].
  rewrite Hconcat. reflexivity.
Defined.

(** X2.  Over a use case that lists the same collection and leaves the
    store alone, pages 1 to [ceil (len all_products / size_page)] of
    [get_products] together hold the whole collection, in order, and every
    one of them reports the size of the whole collection. *)
Theorem get_products_pages_cover :
  forall St (uc : UseCase.ProductsUseCase St) s all_products size_page,
    UseCase.get_products uc s = (Return all_products, s) ->
    Handler.valid_query 1 size_page = true ->
    exists answers,
      Forall2 (fun page result =>
                 Handler.get_products uc page size_page s = (Return result, s))
              (map Z.of_nat
                   (seq 1 (Z.to_nat ((len all_products + size_page - 1)
                                     / size_page))))
              answers /\
      List.concat (map items answers) = all_products /\
      Forall (fun result => total_items result = len all_products) answers.
Proof.
  intros St uc s all_products size_page Hall Hvalid.
  destruct (valid_query_bounds _ _ Hvalid) as (_ & Hs & _).
  set (k := Z.to_nat ((len all_products + size_page - 1) / size_page)).
  eexists. split; [apply get_products_each_page; exact Hall |]. split.
  - rewrite map_map. cbn [items].
    rewrite concat_page_slices by lia.
    apply firstn_all2.
    pose proof (len_nonneg all_products) as Hlen.
    pose proof (Z.mul_succ_div_gt (len all_products + size_page - 1)
                                  size_page ltac:(lia)) as Hceil.
    assert (0 <= (len all_products + size_page - 1) / size_page)
      by (apply Z.div_pos; lia).
    unfold len in *. subst k. nia.
  - apply Forall_map. apply Forall_forall. intros page _. reflexivity.
Qed.

Lemma get_products_pages_cover_witness :
  exists answers,
    Forall2 (fun page result =>
               Handler.get_products (Memory.use_case Memory.ReturnNone)
                                    page 2 Sample.five
               = (Return result, Sample.five))
            [1; 2; 3] answers /\
    List.concat (map items answers) = Memory.rows Sample.five /\
    Forall (fun result => total_items result = 5) answers.
Proof.
  exact (get_products_pages_cover
           _ (Memory.use_case Memory.ReturnNone) Sample.five
           (Memory.rows Sample.five) 2 eq_refl eq_refl).
Defined.

(** X3.  On validated parameters the page [get_products] returns is empty
    exactly when its start index [(page - 1) * size_page] is at or past the
    end of the collection; every earlier page holds at least one product. *)
Theorem get_products_empty_iff_past_end :
  forall St (uc : UseCase.ProductsUseCase St) s s' all_products page size_page,
    UseCase.get_products uc s = (Return all_products, s') ->
    Handler.valid_query page size_page = true ->
    exists result,
      Handler.get_products uc page size_page s = (Return result, s') /\
      (items result = [] <-> len all_products <= (page - 1) * size_page).
Proof.
  intros St uc s s' all_products page size_page Hall Hvalid.
  destruct (valid_query_bounds _ _ Hvalid) as (Hp & Hs & Hidx).
  eexists. split; [apply get_products_run; eassumption |]. cbn [items].
  pose proof (len_slice_nonneg all_products _ _ Hidx) as Hlen.
  split.
  - intros Hnil. rewrite Hnil in Hlen. cbn in Hlen. lia.
  - intros Hpast. now apply slice_past_end.
Qed.

Lemma get_products_empty_iff_past_end_witness :
  exists result,
    Handler.get_products (Memory.use_case Memory.ReturnNone) 3 2 Sample.five
    = (Return result, Sample.five) /\
    items result <> [].
Proof.
  destruct (get_products_empty_iff_past_end
              _ (Memory.use_case Memory.ReturnNone) Sample.five Sample.five
              (Memory.rows Sample.five) 3 2 eq_refl eq_refl)
    as (result & Hrun & Hiff).
  exists result. split; [exact Hrun |].
  intros Hnil. apply Hiff in Hnil. vm_compute in Hnil. now apply Hnil.
Defined.

(** X4.  On validated parameters, the item at position [j] of the page
    [get_products] returns, for [j] below [size_page], is the product at
    position [(page - 1) * size_page + j] of the collection, and the page
    has an item there exactly when the collection has one. *)
Theorem get_products_item_position :
  forall St (uc : UseCase.ProductsUseCase St) s s' all_products page size_page,
    UseCase.get_products uc s = (Return all_products, s') ->
    Handler.valid_query page size_page = true ->
    exists result,
      Handler.get_products uc page size_page s = (Return result, s') /\
      forall j : nat,
        (j < Z.to_nat size_page)%nat ->
        nth_error (items result) j
        = nth_error all_products (Z.to_nat ((page - 1) * size_page) + j).
Proof.
  intros St uc s s' all_products page size_page Hall Hvalid.
  destruct (valid_query_bounds _ _ Hvalid) as (Hp & Hs & Hidx).
  eexists. split; [apply get_products_run; eassumption |]. cbn [items].
  intros j Hj. rewrite slice_nonneg by assumption.
  replace ((page - 1) * size_page + size_page - (page - 1) * size_page)
    with size_page by lia.
  rewrite nth_error_firstn.
  destruct (Nat.ltb_spec j (Z.to_nat size_page)) as [_ | Hge]; [| lia].
  apply nth_error_skipn.
Qed.

Lemma get_products_item_position_witness :
  exists result,
    Handler.get_products (Memory.use_case Memory.ReturnNone) 2 2 Sample.five
    = (Return result, Sample.five) /\
    option_map product_name (nth_error (items result) 1) = Some "drill" /\
    nth_error (items result) 1 = nth_error (Memory.rows Sample.five) 3.
Proof.
  destruct (get_products_item_position
              _ (Memory.use_case Memory.ReturnNone) Sample.five Sample.five
              (Memory.rows Sample.five) 2 2 eq_refl eq_refl)
    as (result & Hrun & Hnth).
  exists result. split; [exact Hrun |].
  specialize (Hnth 1%nat ltac:(vm_compute; lia)).
  split; [rewrite Hnth; reflexivity | exact Hnth].
Defined.

(* ===================================================================== *)
(** ** Statuses and store effects of the handlers *)
(* ===================================================================== *)

(** X5.  Whatever the use case does, [create_product] answers with status
    201 and the product the use case returned, or with status 400 and
    [str] of the exception the use case raised; an [HTTPException] of the
    use case with another status is replaced by the 400 one as well. *)
Theorem create_product_status_201_or_400 :
  forall St (uc : UseCase.ProductsUseCase St) (str : exn -> string)
         product_body s,
    (exists p,
        fst (UseCase.create_product uc product_body s) = Return p /\
        fst (Handler.create_product uc str product_body s) = Return p /\
        Handler.http_status Handler.create_product_status
          (fst (Handler.create_product uc str product_body s)) = 201) \/
    (exists e,
        fst (UseCase.create_product uc product_body s) = Raise e /\
        fst (Handler.create_product uc str product_body s)
        = Raise (HTTPException 400 (str e)) /\
        Handler.http_status Handler.create_product_status
          (fst (Handler.create_product uc str product_body s)) = 400).
Proof.
  intros St uc str product_body s.
  destruct (UseCase.create_product uc product_body s) as [[p | e] s'] eqn:H.
  - left. exists p. rewrite (create_product_return uc str _ _ _ _ H).
    repeat split.
  - right. exists e. rewrite (create_product_raise uc str _ _ _ _ H).
    repeat split.
Qed.

(** X6.  No handler touches the store beyond its one call of the use case:
    the store after a handler is the store the use case left, on the 404
    and 400 paths too, so what a failed creation wrote is not rolled
    back. *)
Theorem handlers_keep_use_case_store :
  forall St (uc : UseCase.ProductsUseCase St) (str : exn -> string) s,
    (forall page size_page,
        snd (Handler.get_products uc page size_page s)
        = snd (UseCase.get_products uc s)) /\
    (forall product_id,
        snd (Handler.get_product uc product_id s)
        = snd (UseCase.get_product_by_id uc product_id s)) /\
    (forall product_body,
        snd (Handler.create_product uc str product_body s)
        = snd (UseCase.create_product uc product_body s)) /\
    (forall product_id update_body,
        snd (Handler.update_product uc product_id update_body s)
        = snd (UseCase.update_product uc product_id update_body s)) /\
    (forall product_id,
        snd (Handler.delete_product uc product_id s)
        = snd (UseCase.delete_product uc product_id s)).
Proof.
  intros St uc str s. repeat split.
  - intros page size_page.
    unfold Handler.get_products, bind.
    now destruct (UseCase.get_products uc s) as [[l | e] s'].
  - intros product_id.
    unfold Handler.get_product, bind.
    now destruct (UseCase.get_product_by_id uc product_id s)
      as [[[p |] | e] s'].
  - intros product_body.
    unfold Handler.create_product, try_except, bind.
    now destruct (UseCase.create_product uc product_body s) as [[p | e] s'].
  - intros product_id update_body.
    unfold Handler.update_product, bind.
    now destruct (UseCase.update_product uc product_id update_body s)
      as [[[p |] | e] s'].
  - intros product_id.
    unfold Handler.delete_product, bind.
    now destruct (UseCase.delete_product uc product_id s) as [[[] | e] s'].
Qed.

(** X7.  Unless the use case itself raises an [HTTPException],
    [get_products] and [delete_product] answer with status 200 when the use
    case returns and with 500 when it raises, for every page, page size and
    identifier: neither of them ever answers 404. *)
Theorem list_and_delete_status_200_or_500 :
  forall St (uc : UseCase.ProductsUseCase St) s,
    (forall page size_page,
        raises_no_http (fst (UseCase.get_products uc s)) ->
        ((exists l, fst (UseCase.get_products uc s) = Return l) /\
         Handler.http_status Handler.get_products_status
           (fst (Handler.get_products uc page size_page s)) = 200) \/
        ((exists e, fst (UseCase.get_products uc s) = Raise e) /\
         Handler.http_status Handler.get_products_status
           (fst (Handler.get_products uc page size_page s)) = 500)) /\
    (forall product_id,
        raises_no_http (fst (UseCase.delete_product uc product_id s)) ->
        ((exists u, fst (UseCase.delete_product uc product_id s) = Return u) /\
         Handler.http_status Handler.delete_product_status
           (fst (Handler.delete_product uc product_id s)) = 200) \/
        ((exists e, fst (UseCase.delete_product uc product_id s) = Raise e) /\
         Handler.http_status Handler.delete_product_status
           (fst (Handler.delete_product uc product_id s)) = 500)).
Proof.
  intros St uc s. split.
  - intros page size_page.
    destruct (UseCase.get_products uc s) as [[l | e] s'] eqn:H;
      cbn [fst]; intros Hno.
    + left. rewrite (get_products_run uc page size_page _ _ _ H).
      split; [now exists l | reflexivity].
    + right. rewrite (get_products_raise uc page size_page _ _ _ H).
      split; [now exists e |].
      destruct e; cbn in *; [contradiction | reflexivity ..].
  - intros product_id.
    destruct (UseCase.delete_product uc product_id s) as [[[] | e] s'] eqn:H;
      cbn [fst]; intros Hno.
    + left. rewrite (delete_product_return uc _ _ _ H).
      split; [now exists tt | reflexivity].
    + right. rewrite (delete_product_raise uc _ _ _ _ H).
      split; [now exists e |].
      destruct e; cbn in *; [contradiction | reflexivity ..].
Qed.

Lemma list_and_delete_status_200_or_500_witness :
  Handler.http_status Handler.get_products_status
    (fst (Handler.get_products (Memory.use_case Memory.ReturnNone) 10 10
                               Sample.five)) = 200 /\
  Handler.http_status Handler.delete_product_status
    (fst (Handler.delete_product (Memory.use_case Memory.RaiseNotFound) 9
                                 Sample.five)) = 500.
Proof.
  destruct (list_and_delete_status_200_or_500
              _ (Memory.use_case Memory.ReturnNone) Sample.five)
    as [Hlist _].
  destruct (list_and_delete_status_200_or_500
              _ (Memory.use_case Memory.RaiseNotFound) Sample.five)
    as [_ Hdelete].
  split.
  - destruct (Hlist 10 10 I) as [[_ H] | [[e He] _]];
      [exact H | discriminate He].
  - destruct (Hdelete 9 I) as [[[u Hu] _] | [_ H]];
      [discriminate Hu | exact H].
Defined.


(* ===================================================================== *)
(** ** Lookup and update against the contents of the store *)
(* ===================================================================== *)

Section StoreContents.
Import Memory.










End StoreContents.






